(** * kicad.pcbnew.board: the Board wrapper and its module collection

    A shallow embedding of [kicad/pcbnew/board.py].  The file is a thin
    object-oriented layer over the native [pcbnew] engine, so the embedding
    has three parts:

    - the fragment of the Python runtime the file relies on (exceptions,
      truthiness, [range], list indexing, generators, float division);
    - the native engine, as an interface: the wrapper only ever calls the
      member functions listed in [Engine], and each theorem names the part
      of the engine's contract it depends on;
    - the methods of [_ModuleList] and [Board], written as computations
      over the state of the native [BOARD] object that [Board._obj] holds. *)

From Stdlib Require Import ZArith List String Bool Lia.
From Stdlib Require Import Sorting.Permutation.
From Stdlib Require Import Floats.PrimFloat Numbers.Cyclic.Int63.Uint63.
Import ListNotations.

Local Open Scope string_scope.
Local Open Scope list_scope.

Set Implicit Arguments.

(** ** The Python runtime *)

Module Py.

(** Exceptions that the embedded code can raise. *)
Inductive exn : Type :=
| KeyError (msg : string)
| IndexError (msg : string)
| ZeroDivisionError (msg : string)
| StopIteration.

(** What a call produces: a value, or a raised exception. *)
Inductive outcome (A : Type) : Type :=
| Return (a : A)
| Raise (e : exn).
Arguments Return {A} a.
Arguments Raise {A} e.

(** A method body running against a mutable store [S].  The store that
    the call leaves behind is returned in both cases: a Python exception
    does not roll anything back. *)
Definition M (S A : Type) : Type := S -> outcome A * S.

Definition ret {S A} (a : A) : M S A := fun s => (Return a, s).

Definition raise {S A} (e : exn) : M S A := fun s => (Raise e, s).

Definition bind {S A B} (c : M S A) (k : A -> M S B) : M S B :=
  fun s =>
    match c s with
    | (Return a, s') => k a s'
    | (Raise e, s') => (Raise e, s')
    end.

(** Reading the store through a query and updating it through a command. *)
Definition query {S A} (f : S -> A) : M S A := fun s => (Return (f s), s).
Definition command {S} (f : S -> S) : M S unit := fun s => (Return tt, f s).

(** A pure outcome used inside a method body. *)
Definition lift {S A} (o : outcome A) : M S A := fun s => (o, s).

(** [float(i)] for a Python int: exact below 2^53, correctly rounded
    below 2^63, which covers every C [int] the engine hands out. *)
Definition float_of_int (i : Z) : float :=
  if (0 <=? i)%Z then of_uint63 (Uint63.of_Z i)
  else PrimFloat.opp (of_uint63 (Uint63.of_Z (- i))).

(** Truth value of a float: only zero (of either sign) is false. *)
Definition float_truthy (x : float) : bool := negb (PrimFloat.eqb x 0%float).

(** [x / y] on floats. *)
Definition truediv (x y : float) : outcome float :=
  if PrimFloat.eqb y 0%float
  then Raise (ZeroDivisionError "float division by zero")
  else Return (PrimFloat.div x y).

(** [len(l)] *)
Definition len {A} (l : list A) : Z := Z.of_nat (List.length l).

(** [range(n)]: empty when [n <= 0]. *)
Definition range (n : Z) : list Z := map Z.of_nat (seq 0 (Z.to_nat n)).

(** [l[i]]: negative indices count from the end, anything outside the
    list raises [IndexError]. *)
Definition getitem {A} (l : list A) (i : Z) : outcome A :=
  let j := if (i <? 0)%Z then (len l + i)%Z else i in
  if (j <? 0)%Z then Raise (IndexError "list index out of range")
  else match nth_error l (Z.to_nat j) with
       | Some a => Return a
       | None => Raise (IndexError "list index out of range")
       end.

(** [for x in xs: body(x)] over an already materialised sequence. *)
Fixpoint for_each {S A} (xs : list A) (body : A -> M S unit) : M S unit :=
  match xs with
  | [] => ret tt
  | x :: rest => bind (body x) (fun _ => for_each rest body)
  end.

End Py.

Import Py.

Declare Scope py_scope.
Delimit Scope py_scope with py.
Notation "x <- c ;; k" := (Py.bind c (fun x => k))
  (at level 61, c at next level, right associativity) : py_scope.
Notation "c ;;; k" := (Py.bind c (fun _ => k))
  (at level 61, right associativity) : py_scope.
Local Open Scope py_scope.

(** ** The native engine *)

(** The member functions of [pcbnew] that [board.py] calls.  The engine is
    not part of this repository; it is a parameter of everything below.
    [BOARD] is the state of one native board object.  Member functions that
    are [const] in the engine are queries of that state; [Add] is the only
    one used here that changes it. *)
Class Engine : Type := {
  BOARD : Type;
  MODULE : Type;
  TRACK : Type;
  DRAWSEGMENT : Type;
  BOARD_ITEM : Type;
  BOARD_DESIGN_SETTINGS : Type;
  (** the intrusive list type returned by [GetModules] *)
  DLIST_MODULE : Type;

  (** upcasts to the common base class *)
  MODULE_upcast : MODULE -> BOARD_ITEM;
  TRACK_upcast : TRACK -> BOARD_ITEM;
  DRAWSEGMENT_upcast : DRAWSEGMENT -> BOARD_ITEM;

  (** [BOARD::FindModuleByReference]; a null pointer reaches Python as [None] *)
  FindModuleByReference : BOARD -> string -> option MODULE;
  (** [BOARD::GetModules] *)
  GetModules : BOARD -> DLIST_MODULE;
  (** the nodes visited when Python iterates over the list, first to last *)
  nodes : DLIST_MODULE -> list MODULE;
  (** [DLIST::GetCount] *)
  GetCount : DLIST_MODULE -> Z;
  (** [MODULE::GetReference] *)
  GetReference : MODULE -> string;
  (** [BOARD::Add] *)
  Add : BOARD -> BOARD_ITEM -> BOARD;
  (** [BOARD::GetDesignSettings] and the three getters used on it *)
  GetDesignSettings : BOARD -> BOARD_DESIGN_SETTINGS;
  GetCurrentTrackWidth : BOARD_DESIGN_SETTINGS -> Z;
  GetCurrentViaSize : BOARD_DESIGN_SETTINGS -> Z;
  GetCurrentViaDrill : BOARD_DESIGN_SETTINGS -> Z
}.

(** The modules on a board, in the engine's own order. *)
Definition modules_of {E : Engine} (b : BOARD) : list MODULE :=
  nodes (GetModules b).

(** The part of the engine's contract that the lookup and size claims
    depend on: the list's count is the number of its nodes, and
    [FindModuleByReference] answers with a module of the board carrying the
    reference exactly when there is one. *)
Class EngineContract (E : Engine) : Prop := {
  GetCount_nodes :
    forall d : DLIST_MODULE, GetCount d = Z.of_nat (List.length (nodes d));
  Find_absent :
    forall (b : BOARD) (r : string),
      (forall m, In m (modules_of b) -> GetReference m <> r) ->
      FindModuleByReference b r = None;
  Find_present :
    forall (b : BOARD) (r : string) (m : MODULE),
      In m (modules_of b) -> GetReference m = r ->
      exists m', FindModuleByReference b r = Some m' /\
                 In m' (modules_of b) /\ GetReference m' = r
}.

(** Modelled from the spec: the behaviour of [BOARD::Add] on a module is
    not in the repository; the spec's scenario fixes it as "iterate()
    yields the modules in the order they were added", that is, a module is
    placed after the ones already on the board. *)
Class PlacementOrder (E : Engine) : Prop := {
  Add_module_last :
    forall (b : BOARD) (m : MODULE),
      modules_of (Add b (MODULE_upcast m)) = modules_of b ++ [m]
}.

(** ** Wrapper objects of the sibling modules *)

(** Python objects that expose a [native_obj] attribute; [Board.add]
    accepts any of them. *)
Class HasNative {E : Engine} (W : Type) : Type :=
  native_obj : W -> BOARD_ITEM.

(** [kicad.pcbnew.module] *)
Module module.
Section module.
Context {E : Engine}.

(** Modelled from the spec: [module.py] is not among the sources.  The
    spec describes the wrapped value as "an explicit wrapped handle value
    type holding an opaque reference to the external object", whose
    reference is the reference of the native module. *)
Record Module : Type := wrap { _obj : MODULE }.

(** Modelled from the spec: the [reference] of a wrapped module is read
    from the native object it holds. *)
Definition reference (m : Module) : string := GetReference (_obj m).

#[export] Instance Module_native : HasNative Module :=
  fun m => MODULE_upcast (_obj m).
End module.
End module.

(** The sibling modules [units], [track] and [drawing] are not among the
    sources either; what [board.py] uses of them is taken as a parameter.
    The two constructors build a free-standing native object from their
    arguments and the board they are given; they put nothing on the board
    (that is what the [Add] call following them in [board.py] is for). *)
Class Collaborators (E : Engine) : Type := {
  (** the coordinates accepted by the constructors *)
  Point : Type;
  (** [units.DEFAULT_UNIT_IUS]: internal units per millimetre *)
  DEFAULT_UNIT_IUS : float;
  DEFAULT_UNIT_IUS_nonzero : PrimFloat.eqb DEFAULT_UNIT_IUS 0%float = false;
  (** [Track(width, start, end, layer, board=self).native_obj] *)
  Track_init : float -> Point -> Point -> string -> BOARD -> TRACK;
  (** [drawing.Segment(start, end, layer, width, board=self).native_obj] *)
  Segment_init : Point -> Point -> string -> float -> BOARD -> DRAWSEGMENT
}.

(** [kicad.pcbnew.track.Track] and [kicad.pcbnew.drawing.Segment] as
    holders of the native object they created. *)
Record Track {E : Engine} : Type := Track_wrap { Track_obj : TRACK }.
Record Segment {E : Engine} : Type := Segment_wrap { Segment_obj : DRAWSEGMENT }.
Arguments Track_wrap {E} _.
Arguments Segment_wrap {E} _.

#[export] Instance Track_native {E : Engine} : HasNative Track :=
  fun t => TRACK_upcast (Track_obj t).
#[export] Instance Segment_native {E : Engine} : HasNative Segment :=
  fun d => DRAWSEGMENT_upcast (Segment_obj d).

(** ** class _ModuleList *)

(** The object has a single field, [_board], set once in [__init__]; the
    board in turn holds the native object in [_obj].  Neither field is ever
    reassigned, so a method of the collection is a computation over the
    state of that native object. *)
Module _ModuleList.
Section _ModuleList.
Context {E : Engine}.
Import module.

(** [__getitem__]: the test [if found] is a test against [None], the
    native proxy defining no truth value of its own. *)
Definition __getitem__ (key : string) : M BOARD Module :=
  found <- query (fun b => FindModuleByReference b key) ;;
  match found with
  | Some found => ret (wrap found)
  | None => raise (KeyError ("No module with reference: " ++ key))
  end.

(** [__iter__] is a generator function: calling it runs nothing and
    returns a new generator object.  The body starts at the first
    [next]: it calls [GetModules] and then hands out one wrapped module
    per [next], until the list is exhausted.  A suspended generator is
    represented by the nodes it has still to visit; what a change of the
    board in the middle of a run does to it is left open by the
    specification and is not modelled. *)
Inductive generator : Type :=
| Created
| Suspended (rest : list MODULE)
| Finished.

Definition __iter__ : M BOARD generator := ret Created.

(** One resumption of the loop [for m in ...: yield wrap(m)] on what is
    left of the native list. *)
Definition resume (rest : list MODULE) : outcome Module * generator :=
  match rest with
  | m :: rest' => (Return (wrap m), Suspended rest')
  | [] => (Raise StopIteration, Finished)
  end.

(** [next(g)]: the outcome and the state the generator object is left in. *)
Definition next (g : generator) : BOARD -> (outcome Module * generator) * BOARD :=
  fun b =>
    match g with
    | Created => (resume (nodes (GetModules b)), b)
    | Suspended rest => (resume rest, b)
    | Finished => ((Raise StopIteration, Finished), b)
    end.

(** [list(g)]: call [next] until it raises [StopIteration].  The number
    of calls is bounded by [fuel]; [None] means the bound was reached
    before the generator stopped. *)
Fixpoint drain (fuel : nat) (g : generator) (b : BOARD)
  : option (outcome (list Module) * BOARD) :=
  match fuel with
  | O => None
  | S fuel' =>
      match next g b with
      | ((Return m, g'), b') =>
          match drain fuel' g' b' with
          | Some (Return ms, b'') => Some (Return (m :: ms), b'')
          | other => other
          end
      | ((Raise StopIteration, _), b') => Some (Return [], b')
      | ((Raise e, _), b') => Some (Raise e, b')
      end
  end.

(** [list(self)]: one full run of a new iteration. *)
Definition iterate (fuel : nat) (b : BOARD)
  : option (outcome (list Module) * BOARD) :=
  match __iter__ b with
  | (Return g, b') => drain fuel g b'
  | (Raise e, b') => Some (Raise e, b')
  end.

(** [__len__] *)
Definition __len__ : M BOARD Z :=
  query (fun b => GetCount (GetModules b)).

End _ModuleList.
End _ModuleList.

(** ** More of the engine and of the sibling modules *)

(** The track list of a board, as [Board.vias] uses it: [GetTracks], the
    nodes visited when Python iterates over the list, and the outcome of
    the test [type(t) == pcbnew.VIA] on the proxy handed out for a node. *)
Class EngineTracks (E : Engine) : Type := {
  DLIST_TRACK : Type;
  GetTracks : BOARD -> DLIST_TRACK;
  track_nodes : DLIST_TRACK -> list TRACK;
  is_VIA : TRACK -> bool
}.

(** The tracks on a board, vias included, in the engine's own order. *)
Definition tracks_of {E : Engine} {T : EngineTracks E} (b : BOARD) : list TRACK :=
  track_nodes (GetTracks b).

(** [kicad.pcbnew.via.Via], not among the sources: a holder of the native
    object, like the other wrappers.  A native via is a track. *)
Record Via {E : Engine} : Type := Via_wrap { Via_obj : TRACK }.
Arguments Via_wrap {E} _.

#[export] Instance Via_native {E : Engine} : HasNative Via :=
  fun v => TRACK_upcast (Via_obj v).

(** [Via(coord, layer_pair, size, drill, board=self).native_obj]: taken as
    a parameter, with the same reading as the two constructors of
    [Collaborators]. *)
Class ViaCollaborator (E : Engine) (K : Collaborators E) : Type := {
  Via_init : Point -> string * string -> float -> float -> BOARD -> TRACK
}.

(** What [Add] does to the module list, for the properties that follow a
    module or a track onto the board.  The first is weaker than
    [PlacementOrder]: the module joins the ones already there, wherever the
    engine puts it. *)
Class AddsModule (E : Engine) : Prop := {
  Add_module_perm :
    forall (b : BOARD) (m : MODULE),
      Permutation (modules_of (Add b (MODULE_upcast m))) (m :: modules_of b)
}.

Class AddKeepsModules (E : Engine) : Prop := {
  Add_track_modules :
    forall (b : BOARD) (t : TRACK),
      modules_of (Add b (TRACK_upcast t)) = modules_of b;
  Add_drawing_modules :
    forall (b : BOARD) (d : DRAWSEGMENT),
      modules_of (Add b (DRAWSEGMENT_upcast d)) = modules_of b
}.

(** ** class Board *)

Module Board.
Section Board.
Context {E : Engine} {K : Collaborators E}.
Import module.

(** [add]: hand the native object to the engine, give the wrapper back. *)
Definition add {W : Type} {N : HasNative W} (obj : W) : M BOARD W :=
  command (fun b => Add b (native_obj obj)) ;;;
  ret obj.

(** [moduleByRef]: the function falls off its end when nothing is found,
    which is a return of [None]. *)
Definition moduleByRef (ref : string) : M BOARD (option Module) :=
  found <- query (fun b => FindModuleByReference b ref) ;;
  match found with
  | Some found => ret (Some (wrap found))
  | None => ret None
  end.

(** [default_width] *)
Definition default_width : M BOARD float :=
  w <- query (fun b => GetCurrentTrackWidth (GetDesignSettings b)) ;;
  lift (truediv (float_of_int w) DEFAULT_UNIT_IUS).

(** [default_via_size] *)
Definition default_via_size : M BOARD float :=
  s <- query (fun b => GetCurrentViaSize (GetDesignSettings b)) ;;
  lift (truediv (float_of_int s) DEFAULT_UNIT_IUS).

(** The literal [0.2], that is, the double nearest to one fifth. *)
Definition fallback_via_drill : float := 0x1.999999999999ap-3%float.

(** [default_via_drill] *)
Definition default_via_drill : M BOARD float :=
  via_drill <- query (fun b => GetCurrentViaDrill (GetDesignSettings b)) ;;
  if (0 <? via_drill)%Z
  then lift (truediv (float_of_int via_drill) DEFAULT_UNIT_IUS)
  else ret fallback_via_drill.

(** [width or self.default_width]: the property is read only when
    [width] is [None] or zero. *)
Definition width_or_default (width : option float) : M BOARD float :=
  match width with
  | Some w => if float_truthy w then ret w else default_width
  | None => default_width
  end.

(** [add_track_segment] *)
Definition add_track_segment (start end_ : Point) (layer : string)
    (width : option float) : M BOARD Track :=
  w <- width_or_default width ;;
  track <- query (fun b => Track_wrap (Track_init w start end_ layer b)) ;;
  command (fun b => Add b (native_obj track)) ;;;
  ret track.

(** [add_track] *)
Definition add_track (coords : list Point) (layer : string)
    (width : option float) : M BOARD unit :=
  for_each (range (len coords - 1)) (fun n =>
    start <- lift (getitem coords n) ;;
    end_ <- lift (getitem coords (n + 1)) ;;
    add_track_segment start end_ layer width ;;;
    ret tt).

(** [add_line] *)
Definition add_line (start end_ : Point) (layer : string) (width : float)
  : M BOARD Segment :=
  line <- query (fun b => Segment_wrap (Segment_init start end_ layer width b)) ;;
  add line.

(** [add_polyline] *)
Definition add_polyline (coords : list Point) (layer : string)
    (width : float) : M BOARD unit :=
  for_each (range (len coords - 1)) (fun n =>
    start <- lift (getitem coords n) ;;
    end_ <- lift (getitem coords (n + 1)) ;;
    add_line start end_ layer width ;;;
    ret tt).

(** [vias]: a property whose body is a generator function, so that every
    access returns a new generator.  The body starts at the first [next]:
    it calls [GetTracks] and walks the list, passing over every track
    whose type is not [VIA]. *)
Context {T : EngineTracks E} {V : ViaCollaborator K}.

Inductive vias_generator : Type :=
| VCreated
| VSuspended (rest : list TRACK)
| VFinished.

Definition vias : M BOARD vias_generator := ret VCreated.

(** One resumption of the loop: run to the next [yield], or to the end. *)
Fixpoint vias_resume (rest : list TRACK) : outcome Via * vias_generator :=
  match rest with
  | t :: rest' =>
      if is_VIA t then (Return (Via_wrap t), VSuspended rest')
      else vias_resume rest'
  | [] => (Raise StopIteration, VFinished)
  end.

Definition vias_next (g : vias_generator)
  : BOARD -> (outcome Via * vias_generator) * BOARD :=
  fun b =>
    match g with
    | VCreated => (vias_resume (track_nodes (GetTracks b)), b)
    | VSuspended rest => (vias_resume rest, b)
    | VFinished => ((Raise StopIteration, VFinished), b)
    end.

(** [list(g)] for such a generator, with a bound on the calls of [next]. *)
Fixpoint vias_drain (fuel : nat) (g : vias_generator) (b : BOARD)
  : option (outcome (list Via) * BOARD) :=
  match fuel with
  | O => None
  | S fuel' =>
      match vias_next g b with
      | ((Return v, g'), b') =>
          match vias_drain fuel' g' b' with
          | Some (Return vs, b'') => Some (Return (v :: vs), b'')
          | other => other
          end
      | ((Raise StopIteration, _), b') => Some (Return [], b')
      | ((Raise e, _), b') => Some (Raise e, b')
      end
  end.

(** [list(self.vias)] *)
Definition list_vias (fuel : nat) (b : BOARD)
  : option (outcome (list Via) * BOARD) :=
  match vias b with
  | (Return g, b') => vias_drain fuel g b'
  | (Raise e, b') => Some (Raise e, b')
  end.

(** [size or self.default_via_size] and [drill or self.default_via_drill] *)
Definition size_or_default (size : option float) : M BOARD float :=
  match size with
  | Some s => if float_truthy s then ret s else default_via_size
  | None => default_via_size
  end.

Definition drill_or_default (drill : option float) : M BOARD float :=
  match drill with
  | Some d => if float_truthy d then ret d else default_via_drill
  | None => default_via_drill
  end.

(** [add_via] *)
Definition add_via (coord : Point) (layer_pair : string * string)
    (size drill : option float) : M BOARD Via :=
  s <- size_or_default size ;;
  d <- drill_or_default drill ;;
  via <- query (fun b => Via_wrap (Via_init coord layer_pair s d b)) ;;
  add via.

End Board.
End Board.

(** ** A reference engine *)

(** A small engine on which the wrapper can be run: a board is the list of
    its modules, of its tracks and of its drawings, together with its
    design settings.  It honours both contracts above. *)
Module RefEngine.

Definition point : Type := (float * float)%type.

Record module_data : Type :=
  { m_Reference : string; m_Pos : point }.
Record track_data : Type :=
  { t_Width : float; t_Start : point; t_End : point; t_Layer : string }.
Record segment_data : Type :=
  { s_Start : point; s_End : point; s_Layer : string; s_Width : float }.
Inductive item : Type :=
| PCB_MODULE_T (m : module_data)
| PCB_TRACE_T (t : track_data)
| PCB_LINE_T (d : segment_data).
Record settings : Type :=
  { m_TrackWidth : Z; m_ViaSize : Z; m_ViaDrill : Z }.
Record board : Type :=
  { m_Modules : list module_data;
    m_Track : list track_data;
    m_Drawings : list segment_data;
    m_designSettings : settings }.

Definition add_item (b : board) (i : item) : board :=
  match i with
  | PCB_MODULE_T m =>
      {| m_Modules := m_Modules b ++ [m]; m_Track := m_Track b;
         m_Drawings := m_Drawings b; m_designSettings := m_designSettings b |}
  | PCB_TRACE_T t =>
      {| m_Modules := m_Modules b; m_Track := m_Track b ++ [t];
         m_Drawings := m_Drawings b; m_designSettings := m_designSettings b |}
  | PCB_LINE_T d =>
      {| m_Modules := m_Modules b; m_Track := m_Track b;
         m_Drawings := m_Drawings b ++ [d]; m_designSettings := m_designSettings b |}
  end.

Definition find_module (b : board) (r : string) : option module_data :=
  find (fun m => String.eqb (m_Reference m) r) (m_Modules b).

#[export] Instance engine : Engine := {|
  BOARD := board;
  MODULE := module_data;
  TRACK := track_data;
  DRAWSEGMENT := segment_data;
  BOARD_ITEM := item;
  BOARD_DESIGN_SETTINGS := settings;
  DLIST_MODULE := list module_data;
  MODULE_upcast := PCB_MODULE_T;
  TRACK_upcast := PCB_TRACE_T;
  DRAWSEGMENT_upcast := PCB_LINE_T;
  FindModuleByReference := find_module;
  GetModules := m_Modules;
  nodes := fun d => d;
  GetCount := fun d => Z.of_nat (List.length d);
  GetReference := m_Reference;
  Add := add_item;
  GetDesignSettings := m_designSettings;
  GetCurrentTrackWidth := m_TrackWidth;
  GetCurrentViaSize := m_ViaSize;
  GetCurrentViaDrill := m_ViaDrill
|}.

#[export] Instance collaborators : Collaborators engine := {|
  Point := point;
  DEFAULT_UNIT_IUS := 1000000%float;
  DEFAULT_UNIT_IUS_nonzero := eq_refl;
  Track_init := fun w s e layer _ =>
    {| t_Width := w; t_Start := s; t_End := e; t_Layer := layer |};
  Segment_init := fun s e layer w _ =>
    {| s_Start := s; s_End := e; s_Layer := layer; s_Width := w |}
|}.

(** A board with nothing on it and the engine's usual defaults, in
    internal units. *)
Definition empty_board : board :=
  {| m_Modules := []; m_Track := []; m_Drawings := [];
     m_designSettings :=
       {| m_TrackWidth := 250000; m_ViaSize := 750000; m_ViaDrill := 500000 |} |}.

(** Three corners of a polyline. *)
Definition p0 : point := (0%float, 0%float).
Definition p1 : point := (10%float, 0%float).
Definition p2 : point := (10%float, 5%float).

Definition placed (r : string) : module_data :=
  {| m_Reference := r; m_Pos := (0%float, 0%float) |}.

(** The board of the scenario: "R1", "C1" and "U1", in this order. *)
Definition three_parts : board :=
  {| m_Modules := [placed "R1"; placed "C1"; placed "U1"];
     m_Track := []; m_Drawings := [];
     m_designSettings := m_designSettings empty_board |}.

(** A board whose current via drill is not set. *)
Definition no_via_drill : board :=
  {| m_Modules := []; m_Track := []; m_Drawings := [];
     m_designSettings :=
       {| m_TrackWidth := 250000; m_ViaSize := 750000; m_ViaDrill := 0 |} |}.

End RefEngine.

(** ** A reference engine with vias *)

(** The same engine with a track list that tells plain tracks from vias,
    for [Board.vias] and [Board.add_via]. *)
Module ViaEngine.

Record via_data : Type :=
  { v_Pos : RefEngine.point; v_Layers : string * string;
    v_Size : float; v_Drill : float }.
Inductive track : Type :=
| PCB_TRACE (t : RefEngine.track_data)
| PCB_VIA (v : via_data).
Inductive item : Type :=
| ITEM_MODULE (m : RefEngine.module_data)
| ITEM_TRACK (t : track)
| ITEM_LINE (d : RefEngine.segment_data).
Record board : Type :=
  { modules : list RefEngine.module_data;
    tracks : list track;
    drawings : list RefEngine.segment_data;
    design : RefEngine.settings }.

Definition add_item (b : board) (i : item) : board :=
  match i with
  | ITEM_MODULE m =>
      {| modules := modules b ++ [m]; tracks := tracks b;
         drawings := drawings b; design := design b |}
  | ITEM_TRACK t =>
      {| modules := modules b; tracks := tracks b ++ [t];
         drawings := drawings b; design := design b |}
  | ITEM_LINE d =>
      {| modules := modules b; tracks := tracks b;
         drawings := drawings b ++ [d]; design := design b |}
  end.

Definition is_via (t : track) : bool :=
  match t with PCB_VIA _ => true | PCB_TRACE _ => false end.

#[export] Instance engine : Engine := {|
  BOARD := board;
  MODULE := RefEngine.module_data;
  TRACK := track;
  DRAWSEGMENT := RefEngine.segment_data;
  BOARD_ITEM := item;
  BOARD_DESIGN_SETTINGS := RefEngine.settings;
  DLIST_MODULE := list RefEngine.module_data;
  MODULE_upcast := ITEM_MODULE;
  TRACK_upcast := ITEM_TRACK;
  DRAWSEGMENT_upcast := ITEM_LINE;
  FindModuleByReference := fun b r =>
    find (fun m => String.eqb (RefEngine.m_Reference m) r) (modules b);
  GetModules := modules;
  nodes := fun d => d;
  GetCount := fun d => Z.of_nat (List.length d);
  GetReference := RefEngine.m_Reference;
  Add := add_item;
  GetDesignSettings := design;
  GetCurrentTrackWidth := RefEngine.m_TrackWidth;
  GetCurrentViaSize := RefEngine.m_ViaSize;
  GetCurrentViaDrill := RefEngine.m_ViaDrill
|}.

#[export] Instance engine_tracks : EngineTracks engine := {|
  DLIST_TRACK := list track;
  GetTracks := tracks;
  track_nodes := fun d => d;
  is_VIA := is_via
|}.

#[export] Instance collaborators : Collaborators engine := {|
  Point := RefEngine.point;
  DEFAULT_UNIT_IUS := 1000000%float;
  DEFAULT_UNIT_IUS_nonzero := eq_refl;
  Track_init := fun w s e layer _ =>
    PCB_TRACE {| RefEngine.t_Width := w; RefEngine.t_Start := s;
                 RefEngine.t_End := e; RefEngine.t_Layer := layer |};
  Segment_init := fun s e layer w _ =>
    {| RefEngine.s_Start := s; RefEngine.s_End := e;
       RefEngine.s_Layer := layer; RefEngine.s_Width := w |}
|}.

#[export] Instance via_collaborator : ViaCollaborator collaborators := {|
  Via_init := fun coord layer_pair size drill _ =>
    PCB_VIA {| v_Pos := coord; v_Layers := layer_pair;
               v_Size := size; v_Drill := drill |}
|}.

Definition through (pos : RefEngine.point) : track :=
  PCB_VIA {| v_Pos := pos; v_Layers := ("B.Cu", "F.Cu");
             v_Size := 0.75%float; v_Drill := 0.5%float |}.

Definition trace (s e : RefEngine.point) : track :=
  PCB_TRACE {| RefEngine.t_Width := 0.25%float; RefEngine.t_Start := s;
               RefEngine.t_End := e; RefEngine.t_Layer := "F.Cu" |}.

(** A routed board: two tracks with a via between them, and a second via. *)
Definition routed : board :=
  {| modules := [RefEngine.placed "R1"; RefEngine.placed "C1"];
     tracks := [trace RefEngine.p0 RefEngine.p1; through RefEngine.p1;
                trace RefEngine.p1 RefEngine.p2; through RefEngine.p2];
     drawings := [];
     design := RefEngine.m_designSettings RefEngine.empty_board |}.

(** A board on which neither a via drill nor a via size was chosen. *)
Definition unset : board :=
  {| modules := []; tracks := []; drawings := [];
     design := {| RefEngine.m_TrackWidth := 250000;
                  RefEngine.m_ViaSize := 750000;
                  RefEngine.m_ViaDrill := 0 |} |}.

End ViaEngine.

(** * Properties *)

(** ** The reference engine honours the contracts *)

Lemma RefEngine_find_none (ms : list RefEngine.module_data) (r : string) :
  (forall m, In m ms -> RefEngine.m_Reference m <> r) ->
  find (fun m => String.eqb (RefEngine.m_Reference m) r) ms = None.
Proof.
  induction ms as [|m ms IH]; intros Habs; simpl; [reflexivity|].
  destruct (String.eqb_spec (RefEngine.m_Reference m) r) as [Heq|Hne].
  - exfalso. apply (Habs m); [left; reflexivity | exact Heq].
  - apply IH. intros m' Hin. apply Habs. right. exact Hin.
Qed.

Lemma RefEngine_find_some (ms : list RefEngine.module_data) (r : string)
    (m : RefEngine.module_data) :
  In m ms -> RefEngine.m_Reference m = r ->
  exists m', find (fun m => String.eqb (RefEngine.m_Reference m) r) ms = Some m'
             /\ In m' ms /\ RefEngine.m_Reference m' = r.
Proof.
  induction ms as [|m0 ms IH]; intros Hin Href; [destruct Hin|].
  simpl. destruct (String.eqb_spec (RefEngine.m_Reference m0) r) as [Heq|Hne].
  - exists m0. repeat split; [left; reflexivity | exact Heq].
  - destruct Hin as [->|Hin]; [contradiction|].
    destruct (IH Hin Href) as (m' & Hf & Hin' & Hr').
    exists m'. repeat split; [exact Hf | right; exact Hin' | exact Hr'].
Qed.

#[export] Instance RefEngine_contract : EngineContract RefEngine.engine.
Proof.
  constructor.
  - intros d. reflexivity.
  - intros b r Habs. apply RefEngine_find_none. exact Habs.
  - intros b r m Hin Href. eapply RefEngine_find_some; eassumption.
Qed.

#[export] Instance RefEngine_placement : PlacementOrder RefEngine.engine.
Proof.
  constructor. intros b m. reflexivity.
Qed.

(** ** The Python runtime on small inputs *)

Example range_negative : Py.range (-1) = [].
Proof. reflexivity. Qed.

Example range_two : Py.range 2 = [0%Z; 1%Z].
Proof. reflexivity. Qed.

Example getitem_last : Py.getitem ["a"; "b"] (-1) = Return "b".
Proof. reflexivity. Qed.

Example getitem_outside :
  Py.getitem ["a"] 1 = Raise (IndexError "list index out of range").
Proof. reflexivity. Qed.

Example truediv_zero :
  Py.truediv 1%float 0%float = Raise (ZeroDivisionError "float division by zero").
Proof. reflexivity. Qed.

Example float_of_int_negative : Py.float_of_int (-3) = (-3)%float.
Proof. reflexivity. Qed.

(** ** Iteration *)

Section Iteration.
Context {E : Engine}.
Import module _ModuleList.

(** A generator suspended on [rest] hands out the wrapped nodes of
    [rest] and stops; this takes one [next] per node and a last one that
    raises [StopIteration]. *)
Lemma drain_suspended (rest : list MODULE) (b : BOARD) (fuel : nat) :
  List.length rest < fuel ->
  drain fuel (Suspended rest) b = Some (Return (map wrap rest), b).
Proof.
  revert fuel. induction rest as [|m rest IH]; intros fuel Hfuel.
  - destruct fuel as [|fuel]; [lia|]. reflexivity.
  - destruct fuel as [|fuel]; [simpl in Hfuel; lia|].
    simpl in Hfuel. cbn [drain next resume].
    rewrite IH by lia. reflexivity.
Qed.

(** With fewer calls than that the run is not over. *)
Lemma drain_suspended_short (rest : list MODULE) (b : BOARD) (fuel : nat) :
  fuel <= List.length rest ->
  drain fuel (Suspended rest) b = None.
Proof.
  revert fuel. induction rest as [|m rest IH]; intros fuel Hfuel.
  - simpl in Hfuel. assert (fuel = 0) by lia. subst. reflexivity.
  - destruct fuel as [|fuel]; [reflexivity|].
    simpl in Hfuel. cbn [drain next resume].
    rewrite IH by lia. reflexivity.
Qed.

(** A new generator behaves as one suspended on the board's list. *)
Lemma drain_created (b : BOARD) (fuel : nat) :
  drain fuel Created b = drain fuel (Suspended (modules_of b)) b.
Proof.
  destruct fuel as [|fuel]; reflexivity.
Qed.

(** One full run of [iterate]: the wrapped modules of the board, in the
    engine's order, and the board as it was. *)
Lemma iterate_run (b : BOARD) (fuel : nat) :
  List.length (modules_of b) < fuel ->
  iterate fuel b = Some (Return (map wrap (modules_of b)), b).
Proof.
  intros Hfuel. unfold iterate, __iter__, ret.
  rewrite drain_created. apply drain_suspended. exact Hfuel.
Qed.

(** A run that ends does not depend on the bound it was given. *)
Lemma iterate_result (b : BOARD) (fuel : nat)
    (r : outcome (list Module) * BOARD) :
  iterate fuel b = Some r ->
  r = (Return (map wrap (modules_of b)), b).
Proof.
  intros Hrun.
  destruct (Nat.lt_ge_cases (List.length (modules_of b)) fuel) as [Hlt|Hge].
  - rewrite iterate_run in Hrun by exact Hlt. congruence.
  - unfold iterate, __iter__, ret in Hrun. rewrite drain_created in Hrun.
    rewrite drain_suspended_short in Hrun by exact Hge. discriminate.
Qed.

(** Two runs one after the other, as in
    [first = list(modules); second = list(modules)]. *)
Definition iterate_twice (fuel : nat) (b : BOARD)
  : option (outcome (list Module * list Module) * BOARD) :=
  match iterate fuel b with
  | Some (Return first, b1) =>
      match iterate fuel b1 with
      | Some (Return second, b2) => Some (Return (first, second), b2)
      | Some (Raise e, b2) => Some (Raise e, b2)
      | None => None
      end
  | Some (Raise e, b1) => Some (Raise e, b1)
  | None => None
  end.

End Iteration.

(** ** The collection *)

Section Collection.
Context {E : Engine}.
Import module _ModuleList.

Lemma getitem_absent_lookup (C : EngineContract E) (b : BOARD) (R : string) :
  (forall m, In m (modules_of b) -> GetReference m <> R) ->
  __getitem__ R b = (Raise (KeyError ("No module with reference: " ++ R)), b).
Proof.
  intros Habsent. unfold __getitem__, bind, query.
  rewrite (Find_absent b Habsent). reflexivity.
Qed.

(** C1. When no module of the board carries the reference [R], the keyed
    lookup raises [KeyError] (the collection's not-found error), returns
    no value and leaves the board as it is. *)
Theorem getitem_absent_raises (C : EngineContract E) (b : BOARD) (R : string) :
  (forall m, In m (modules_of b) -> GetReference m <> R) ->
  __getitem__ R b = (Raise (KeyError ("No module with reference: " ++ R)), b) /\
  forall w b', __getitem__ R b <> (Return w, b').
Proof.
  intros Habsent. rewrite (getitem_absent_lookup C b Habsent).
  split; [reflexivity|]. intros w b' Heq. discriminate.
Qed.

(** C2. When a module of the board carries the reference [R], the keyed
    lookup returns a wrapped module of that board whose reference is [R]. *)
Theorem getitem_present_returns (C : EngineContract E) (b : BOARD) (R : string) :
  (exists m, In m (modules_of b) /\ GetReference m = R) ->
  exists w : Module,
    __getitem__ R b = (Return w, b) /\
    reference w = R /\ In (_obj w) (modules_of b).
Proof.
  intros (m & Hin & Href).
  destruct (Find_present b m Hin Href) as (m' & Hfind & Hin' & Href').
  exists (wrap m'). unfold __getitem__, bind, query. rewrite Hfind.
  repeat split; assumption.
Qed.

(** C3. On every board state the value of [__len__] is the number of
    elements that one full run of [__iter__] yields on that state; both
    are computed from the state they are called on and leave it as it
    is, so no count survives from one call to the next. *)
Theorem len_is_iteration_count (C : EngineContract E) (b : BOARD) :
  exists xs : list Module,
    iterate (S (List.length (modules_of b))) b = Some (Return xs, b) /\
    __len__ b = (Return (Py.len xs), b).
Proof.
  exists (map wrap (modules_of b)). split.
  - apply iterate_run. lia.
  - unfold __len__, query, Py.len. rewrite GetCount_nodes, length_map.
    reflexivity.
Qed.

(** C4. On a board with no module, iteration yields nothing and the size
    is zero. *)
Theorem empty_board_iterates_nothing (C : EngineContract E) (b : BOARD) :
  modules_of b = [] ->
  iterate 1 b = Some (Return [], b) /\ __len__ b = (Return 0%Z, b).
Proof.
  intros Hempty. split.
  - rewrite iterate_run by (rewrite Hempty; simpl; lia).
    rewrite Hempty. reflexivity.
  - unfold __len__, query. rewrite GetCount_nodes.
    fold (modules_of b). rewrite Hempty. reflexivity.
Qed.

(** C5. Two full runs of [__iter__] with nothing done to the board in
    between yield the same modules in the same order.  Each run starts
    from the head of the board's list, ends after one [next] per module
    and a last one raising [StopIteration], and yields the board's
    modules in the engine's order. *)
Theorem iteration_is_stable (b : BOARD) :
  let n := List.length (modules_of b) in
  exists xs : list Module,
    iterate_twice (S n) b = Some (Return (xs, xs), b) /\
    map _obj xs = modules_of b /\
    iterate n b = None /\
    next Finished b = ((Raise StopIteration, Finished), b).
Proof.
  intros n. exists (map wrap (modules_of b)).
  assert (Hrun : iterate (S n) b = Some (Return (map wrap (modules_of b)), b))
    by (apply iterate_run; unfold n; lia).
  repeat split.
  - unfold iterate_twice. rewrite Hrun, Hrun. reflexivity.
  - rewrite map_map. simpl. apply map_id.
  - unfold iterate, __iter__, ret. rewrite drain_created.
    apply drain_suspended_short. unfold n. lia.
Qed.

(** C7. The keyed lookup leaves the board as it found it, whether it
    returns a module or raises. *)
Theorem getitem_keeps_board (b : BOARD) (R : string) :
  snd (__getitem__ R b) = b /\
  ((exists w, __getitem__ R b = (Return w, b)) \/
   (exists e, __getitem__ R b = (Raise e, b))).
Proof.
  unfold __getitem__, bind, query.
  destruct (FindModuleByReference b R) as [found|]; split;
    try reflexivity.
  - left. eexists. reflexivity.
  - right. eexists. reflexivity.
Qed.

End Collection.

(** ** Python lists and loops *)

Section Loops.
Context {A : Type}.

(** The consecutive pairs of a list: each element with the next one. *)
Definition segments (coords : list A) : list (A * A) :=
  combine coords (tl coords).

Lemma segments_length (coords : list A) :
  List.length (segments coords) = List.length coords - 1.
Proof.
  unfold segments. rewrite length_combine.
  destruct coords as [|c coords]; cbn [List.length tl]; lia.
Qed.

Lemma segments_nth (coords : list A) (i : nat) (s e : A) :
  nth_error coords i = Some s -> nth_error coords (S i) = Some e ->
  nth_error (segments coords) i = Some (s, e).
Proof.
  revert i. induction coords as [|c coords IH]; intros i Hs He.
  - destruct i; discriminate.
  - destruct coords as [|c' coords]; [destruct i; discriminate|].
    destruct i as [|i].
    + simpl in Hs, He. injection Hs as ->. injection He as ->. reflexivity.
    + change (nth_error (segments (c' :: coords)) i = Some (s, e)).
      apply IH; assumption.
Qed.

Lemma skipn_nth_cons {B : Type} (l : list B) (k : nat) (x : B) :
  nth_error l k = Some x -> skipn k l = x :: skipn (S k) l.
Proof.
  revert k. induction l as [|y l IH]; intros k Hk.
  - destruct k; discriminate.
  - destruct k as [|k].
    + injection Hk as ->. reflexivity.
    + simpl in Hk. change (skipn k l = x :: skipn (S k) l). apply IH. exact Hk.
Qed.

(** Indexing inside the list does not raise. *)
Lemma getitem_nth (l : list A) (k : nat) (a : A) :
  nth_error l k = Some a -> getitem l (Z.of_nat k) = Return a.
Proof.
  intros Hk. unfold getitem.
  assert (Hpos : (Z.of_nat k <? 0)%Z = false) by (apply Z.ltb_ge; lia).
  rewrite Hpos. cbv zeta. rewrite Hpos, Nat2Z.id, Hk. reflexivity.
Qed.

Variable S : Type.
Variable R : Type.
(** what is done with each pair, and the store it leaves *)
Variable act : A -> A -> M S R.
Variable result : A -> A -> S -> R.
Variable effect : S -> A * A -> S.
Hypothesis act_run :
  forall s e st, act s e st = (Return (result s e st), effect st (s, e)).

(** The loop shared by [add_track] and [add_polyline]. *)
Definition polyline_loop (coords : list A) : M S unit :=
  for_each (range (len coords - 1)) (fun n =>
    start <- lift (getitem coords n) ;;
    end_ <- lift (getitem coords (n + 1)) ;;
    act start end_ ;;;
    ret tt).

Lemma polyline_loop_from (coords : list A) (m k : nat) (st : S) :
  k + m < List.length coords ->
  for_each (map Z.of_nat (seq k m)) (fun n =>
    start <- lift (getitem coords n) ;;
    end_ <- lift (getitem coords (n + 1)) ;;
    act start end_ ;;;
    ret tt) st
  = (Return tt, fold_left effect (firstn m (skipn k (segments coords))) st).
Proof.
  revert k st. induction m as [|m IH]; intros k st Hlen.
  - reflexivity.
  - destruct (nth_error coords k) as [s|] eqn:Hs;
      [|apply nth_error_None in Hs; lia].
    destruct (nth_error coords (Datatypes.S k)) as [e|] eqn:He;
      [|apply nth_error_None in He; lia].
    rewrite (@skipn_nth_cons _ _ k _ (@segments_nth coords k s e Hs He)).
    cbn [seq map for_each firstn fold_left].
    unfold bind at 1. unfold bind at 1, lift at 1.
    rewrite (@getitem_nth coords k s Hs).
    unfold bind at 1, lift at 1.
    replace (Z.of_nat k + 1)%Z with (Z.of_nat (Datatypes.S k)) by lia.
    rewrite (@getitem_nth coords (Datatypes.S k) e He).
    unfold bind at 1. rewrite act_run. unfold ret at 1.
    apply IH. lia.
Qed.

(** The loop never raises; it performs the effect of [act] once for each
    consecutive pair, first pair first. *)
Lemma polyline_loop_run (coords : list A) (st : S) :
  polyline_loop coords st
  = (Return tt, fold_left effect (segments coords) st).
Proof.
  unfold polyline_loop, range, len.
  replace (Z.to_nat (Z.of_nat (List.length coords) - 1))
    with (List.length coords - 1) by lia.
  destruct coords as [|c coords]; [reflexivity|].
  rewrite polyline_loop_from by (simpl; lia).
  rewrite skipn_O, firstn_all2; [reflexivity|].
  rewrite segments_length. lia.
Qed.

End Loops.

(** ** The board *)

Section BoardFacts.
Context {E : Engine} {K : Collaborators E}.
Import module _ModuleList Board.

(** Division by the unit constant never raises. *)
Lemma truediv_by_unit (x : float) :
  truediv x DEFAULT_UNIT_IUS = Return (PrimFloat.div x DEFAULT_UNIT_IUS).
Proof.
  unfold truediv. rewrite DEFAULT_UNIT_IUS_nonzero. reflexivity.
Qed.

(** The engine's value, as a float, over the unit constant. *)
Definition in_mm (internal : Z) : float :=
  PrimFloat.div (float_of_int internal) DEFAULT_UNIT_IUS.

Lemma default_width_run (b : BOARD) :
  default_width b
  = (Return (in_mm (GetCurrentTrackWidth (GetDesignSettings b))), b).
Proof.
  unfold default_width, bind, query, lift.
  rewrite truediv_by_unit. reflexivity.
Qed.

(** The width a new track segment gets on board [b]. *)
Definition track_width (width : option float) (b : BOARD) : float :=
  match width with
  | Some w =>
      if float_truthy w then w
      else in_mm (GetCurrentTrackWidth (GetDesignSettings b))
  | None => in_mm (GetCurrentTrackWidth (GetDesignSettings b))
  end.

Lemma width_or_default_run (width : option float) (b : BOARD) :
  width_or_default width b = (Return (track_width width b), b).
Proof.
  unfold width_or_default, track_width.
  destruct width as [w|]; [destruct (float_truthy w)|];
    try apply default_width_run; reflexivity.
Qed.

(** The board after one track segment, and after one graphic line. *)
Definition lay_track (layer : string) (width : option float)
    (b : BOARD) (se : Point * Point) : BOARD :=
  Add b (TRACK_upcast
           (Track_init (track_width width b) (fst se) (snd se) layer b)).

Definition lay_line (layer : string) (width : float)
    (b : BOARD) (se : Point * Point) : BOARD :=
  Add b (DRAWSEGMENT_upcast (Segment_init (fst se) (snd se) layer width b)).

Lemma add_track_segment_run (layer : string) (width : option float)
    (s e : Point) (b : BOARD) :
  add_track_segment s e layer width b
  = (Return (Track_wrap (Track_init (track_width width b) s e layer b)),
     lay_track layer width b (s, e)).
Proof.
  unfold add_track_segment, bind at 1.
  rewrite width_or_default_run. reflexivity.
Qed.

Lemma add_line_run (layer : string) (width : float)
    (s e : Point) (b : BOARD) :
  add_line s e layer width b
  = (Return (Segment_wrap (Segment_init s e layer width b)),
     lay_line layer width b (s, e)).
Proof. reflexivity. Qed.

Lemma add_track_run (coords : list Point) (layer : string)
    (width : option float) (b : BOARD) :
  add_track coords layer width b
  = (Return tt, fold_left (lay_track layer width) (segments coords) b).
Proof.
  exact (polyline_loop_run
           (fun s e => add_track_segment s e layer width) _ _
           (add_track_segment_run layer width) coords b).
Qed.

Lemma add_polyline_run (coords : list Point) (layer : string)
    (width : float) (b : BOARD) :
  add_polyline coords layer width b
  = (Return tt, fold_left (lay_line layer width) (segments coords) b).
Proof.
  exact (polyline_loop_run
           (fun s e => add_line s e layer width) _ _
           (add_line_run layer width) coords b).
Qed.

(** C8, as amended.  The default track width and the default via size
    are the engine's current value, as a float, divided by the unit
    constant, and the board is only read.  The default via drill is
    that quotient only when the engine's current via drill is positive;
    otherwise it is the constant 0.2. *)
Theorem design_settings_in_mm (b : BOARD) :
  default_width b
  = (Return (in_mm (GetCurrentTrackWidth (GetDesignSettings b))), b) /\
  default_via_size b
  = (Return (in_mm (GetCurrentViaSize (GetDesignSettings b))), b) /\
  default_via_drill b
  = (Return (if (0 <? GetCurrentViaDrill (GetDesignSettings b))%Z
             then in_mm (GetCurrentViaDrill (GetDesignSettings b))
             else fallback_via_drill), b).
Proof.
  split; [apply default_width_run|split].
  - unfold default_via_size, bind, query, lift.
    rewrite truediv_by_unit. reflexivity.
  - unfold default_via_drill, bind, query, lift.
    destruct (0 <? GetCurrentViaDrill (GetDesignSettings b))%Z;
      [rewrite truediv_by_unit|]; reflexivity.
Qed.

(** C9. [moduleByRef] returns [None], and raises nothing, when no module
    of the board carries the reference, where the collection's keyed
    lookup raises [KeyError]; it returns a wrapped module with that
    reference when there is one. *)
Theorem moduleByRef_none_or_module (C : EngineContract E)
    (b : BOARD) (R : string) :
  ((forall m, In m (modules_of b) -> GetReference m <> R) ->
   moduleByRef R b = (Return None, b) /\
   exists msg, __getitem__ R b = (Raise (KeyError msg), b)) /\
  ((exists m, In m (modules_of b) /\ GetReference m = R) ->
   exists w : Module,
     moduleByRef R b = (Return (Some w), b) /\
     reference w = R /\ In (_obj w) (modules_of b)).
Proof.
  split.
  - intros Habsent. unfold moduleByRef, __getitem__, bind, query.
    rewrite (Find_absent b Habsent). split; [reflexivity|].
    eexists. reflexivity.
  - intros (m & Hin & Href).
    destruct (Find_present b m Hin Href) as (m' & Hfind & Hin' & Href').
    exists (wrap m'). unfold moduleByRef, bind, query. rewrite Hfind.
    repeat split; assumption.
Qed.

(** C10. With fewer than two coordinates [add_track] and [add_polyline]
    leave the board as it is.  With [n >= 2] coordinates they hand the
    engine one segment per consecutive pair of coordinates, first pair
    first: [n - 1] segments, the [i]-th going from coordinate [i] to
    coordinate [i + 1]. *)
Theorem polylines_add_consecutive_segments (coords : list Point)
    (track_layer line_layer : string)
    (track_w : option float) (line_w : float) (b : BOARD) :
  (List.length coords < 2 ->
   add_track coords track_layer track_w b = (Return tt, b) /\
   add_polyline coords line_layer line_w b = (Return tt, b)) /\
  (2 <= List.length coords ->
   add_track coords track_layer track_w b
   = (Return tt, fold_left (lay_track track_layer track_w) (segments coords) b) /\
   add_polyline coords line_layer line_w b
   = (Return tt, fold_left (lay_line line_layer line_w) (segments coords) b) /\
   List.length (segments coords) = List.length coords - 1 /\
   forall i s e,
     nth_error coords i = Some s -> nth_error coords (S i) = Some e ->
     nth_error (segments coords) i = Some (s, e)).
Proof.
  split.
  - intros Hshort. rewrite add_track_run, add_polyline_run.
    assert (Hnone : segments coords = []).
    { apply length_zero_iff_nil. rewrite segments_length. lia. }
    rewrite Hnone. split; reflexivity.
  - intros Hlong. rewrite add_track_run, add_polyline_run.
    repeat split.
    + apply segments_length.
    + intros i s e. apply segments_nth.
Qed.

End BoardFacts.

(** ** The scenario of the specification *)

Section Scenario.
Context {E : Engine}.
Import module _ModuleList Board.

(** Three modules put on the board one after the other with [Board.add]. *)
Definition add_three (m1 m2 m3 : MODULE) : M BOARD unit :=
  add (wrap m1) ;;;
  add (wrap m2) ;;;
  add (wrap m3) ;;;
  ret tt.

Lemma add_three_modules (P : PlacementOrder E) (b0 : BOARD) (m1 m2 m3 : MODULE) :
  modules_of b0 = [] ->
  modules_of (snd (add_three m1 m2 m3 b0)) = [m1; m2; m3].
Proof.
  intros Hempty. cbn.
  change (native_obj (wrap m3)) with (MODULE_upcast m3).
  change (native_obj (wrap m2)) with (MODULE_upcast m2).
  change (native_obj (wrap m1)) with (MODULE_upcast m1).
  rewrite !Add_module_last, Hempty. reflexivity.
Qed.

(** C6. On a board to which modules with references "R1", "C1" and "U1"
    were added in this order, iteration yields the three in this order,
    the lookup of "C1" returns the module added second, the lookup of
    "Q1" raises [KeyError], and the size is 3. *)
Theorem scenario_three_modules (C : EngineContract E) (P : PlacementOrder E)
    (b0 : BOARD) (m1 m2 m3 : MODULE) :
  modules_of b0 = [] ->
  GetReference m1 = "R1" -> GetReference m2 = "C1" -> GetReference m3 = "U1" ->
  exists b : BOARD,
    add_three m1 m2 m3 b0 = (Return tt, b) /\
    iterate 4 b = Some (Return [wrap m1; wrap m2; wrap m3], b) /\
    __getitem__ "C1" b = (Return (wrap m2), b) /\
    __getitem__ "Q1" b
    = (Raise (KeyError "No module with reference: Q1"), b) /\
    __len__ b = (Return 3%Z, b).
Proof.
  intros Hempty H1 H2 H3.
  pose proof (@add_three_modules P b0 m1 m2 m3 Hempty) as Hmods.
  exists (snd (add_three m1 m2 m3 b0)).
  set (b := snd (add_three m1 m2 m3 b0)) in *.
  split; [reflexivity|]. split; [|split; [|split]].
  - rewrite iterate_run by (rewrite Hmods; simpl; lia).
    rewrite Hmods. reflexivity.
  - assert (Hin : In m2 (modules_of b)) by (rewrite Hmods; simpl; auto).
    destruct (Find_present b m2 Hin H2) as (m' & Hfind & Hin' & Href').
    unfold __getitem__, bind, query. rewrite Hfind.
    rewrite Hmods in Hin'. simpl in Hin'.
    destruct Hin' as [<-|[<-|[<-|[]]]]; [|reflexivity|];
      rewrite Href' in *; discriminate.
  - apply (@getitem_absent_lookup E C).
    intros m Hin. rewrite Hmods in Hin. simpl in Hin.
    destruct Hin as [<-|[<-|[<-|[]]]]; congruence.
  - unfold __len__, query. rewrite GetCount_nodes.
    fold (modules_of b). rewrite Hmods. reflexivity.
Qed.

End Scenario.

(** ** The wrapper on the reference engine *)

Section OnRefEngine.
Import module _ModuleList Board RefEngine.

(** The references of [three_parts] are "R1", "C1" and "U1", nothing else. *)
Lemma three_parts_no_Q1 :
  forall m, In m (modules_of three_parts) -> GetReference m <> "Q1".
Proof.
  intros m Hin. simpl in Hin.
  destruct Hin as [<-|[<-|[<-|[]]]]; discriminate.
Defined.

Lemma three_parts_has_C1 :
  exists m, In m (modules_of three_parts) /\ GetReference m = "C1".
Proof.
  exists (placed "C1"). split; [simpl; auto | reflexivity].
Defined.

Example iterate_three_parts :
  iterate 4 three_parts
  = Some (Return [wrap (placed "R1"); wrap (placed "C1"); wrap (placed "U1")],
          three_parts).
Proof. reflexivity. Qed.

(** Unlike a mapping, the collection iterates over its modules, not over
    their references; with too small a bound the run is cut short. *)
Example iterate_three_parts_short : iterate 3 three_parts = None.
Proof. reflexivity. Qed.

Example add_track_three_points :
  m_Track (snd (add_track [p0; p1; p2] "F.Cu" None empty_board))
  = [ {| t_Width := 0.25; t_Start := p0; t_End := p1; t_Layer := "F.Cu" |};
      {| t_Width := 0.25; t_Start := p1; t_End := p2; t_Layer := "F.Cu" |} ].
Proof. vm_compute. reflexivity. Qed.

Example default_via_drill_set :
  default_via_drill empty_board = (Return 0.5%float, empty_board).
Proof. vm_compute. reflexivity. Qed.

Lemma getitem_absent_raises_witness :
  __getitem__ "Q1" three_parts
  = (Raise (KeyError "No module with reference: Q1"), three_parts) /\
  forall w b', __getitem__ "Q1" three_parts <> (Return w, b').
Proof.
  exact (@getitem_absent_raises engine RefEngine_contract three_parts "Q1"
           three_parts_no_Q1).
Defined.

Lemma getitem_present_returns_witness :
  exists w : Module,
    __getitem__ "C1" three_parts = (Return w, three_parts) /\
    reference w = "C1" /\ In (_obj w) (modules_of three_parts).
Proof.
  exact (@getitem_present_returns engine RefEngine_contract three_parts "C1"
           three_parts_has_C1).
Defined.

Lemma len_is_iteration_count_witness :
  exists xs : list Module,
    iterate 4 three_parts = Some (Return xs, three_parts) /\
    __len__ three_parts = (Return (Py.len xs), three_parts).
Proof.
  exact (@len_is_iteration_count engine RefEngine_contract three_parts).
Defined.

Lemma empty_board_iterates_nothing_witness :
  iterate 1 empty_board = Some (Return [], empty_board) /\
  __len__ empty_board = (Return 0%Z, empty_board).
Proof.
  apply (@empty_board_iterates_nothing engine RefEngine_contract empty_board).
  reflexivity.
Defined.

Lemma scenario_three_modules_witness :
  exists b : BOARD,
    add_three (placed "R1") (placed "C1") (placed "U1") empty_board
    = (Return tt, b) /\
    iterate 4 b
    = Some (Return [wrap (placed "R1"); wrap (placed "C1"); wrap (placed "U1")], b) /\
    __getitem__ "C1" b = (Return (wrap (placed "C1")), b) /\
    __getitem__ "Q1" b
    = (Raise (KeyError "No module with reference: Q1"), b) /\
    __len__ b = (Return 3%Z, b).
Proof.
  apply (@scenario_three_modules engine RefEngine_contract RefEngine_placement
           empty_board (placed "R1") (placed "C1") (placed "U1"));
    reflexivity.
Defined.

Lemma moduleByRef_none_or_module_witness :
  (moduleByRef "Q1" three_parts = (Return None, three_parts) /\
   exists msg, __getitem__ "Q1" three_parts = (Raise (KeyError msg), three_parts)) /\
  (exists w : Module,
     moduleByRef "C1" three_parts = (Return (Some w), three_parts) /\
     reference w = "C1" /\ In (_obj w) (modules_of three_parts)).
Proof.
  split.
  - exact (proj1 (@moduleByRef_none_or_module engine RefEngine_contract
                    three_parts "Q1") three_parts_no_Q1).
  - exact (proj2 (@moduleByRef_none_or_module engine RefEngine_contract
                    three_parts "C1") three_parts_has_C1).
Defined.

Lemma polylines_add_consecutive_segments_witness :
  (add_track [p0] "F.Cu" None empty_board = (Return tt, empty_board) /\
   add_polyline [p0] "F.SilkS" 0.25%float empty_board = (Return tt, empty_board)) /\
  (add_track [p0; p1; p2] "F.Cu" None empty_board
   = (Return tt,
      fold_left (lay_track "F.Cu" None) (segments [p0; p1; p2]) empty_board) /\
   add_polyline [p0; p1; p2] "F.SilkS" 0.25%float empty_board
   = (Return tt,
      fold_left (lay_line "F.SilkS" 0.25%float) (segments [p0; p1; p2]) empty_board) /\
   List.length (segments [p0; p1; p2]) = 2 /\
   forall i s e,
     nth_error [p0; p1; p2] i = Some s -> nth_error [p0; p1; p2] (S i) = Some e ->
     nth_error (segments [p0; p1; p2]) i = Some (s, e)).
Proof.
  split.
  - apply (proj1 (@polylines_add_consecutive_segments engine collaborators
                    [p0] "F.Cu" "F.SilkS" None 0.25%float empty_board)).
    simpl. lia.
  - apply (proj2 (@polylines_add_consecutive_segments engine collaborators
                    [p0; p1; p2] "F.Cu" "F.SilkS" None 0.25%float empty_board)).
    simpl. lia.
Defined.

(** C8, as stated, fails: on a board whose current via drill is 0 the
    property returns 0.2, which is not 0 divided by the unit constant. *)
Lemma default_via_drill_not_quotient :
  default_via_drill no_via_drill = (Return fallback_via_drill, no_via_drill) /\
  default_via_drill no_via_drill
  <> (Return (in_mm (GetCurrentViaDrill (GetDesignSettings no_via_drill))),
      no_via_drill).
Proof.
  split; [reflexivity|].
  intros Heq.
  apply (f_equal (fun r => match fst r with
                           | Return x => PrimFloat.ltb 0%float x
                           | Raise _ => false
                           end)) in Heq.
  vm_compute in Heq. discriminate.
Qed.

End OnRefEngine.

(** * Further properties of the board *)

(** ** Lookup against iteration *)

Section LookupFacts.
Context {E : Engine}.
Import module _ModuleList Board.

(** What the engine's contract says about an answer of
    [FindModuleByReference], read backwards. *)
Lemma Find_some_on_board (C : EngineContract E) (b : BOARD) (r : string)
    (m : MODULE) :
  FindModuleByReference b r = Some m ->
  In m (modules_of b) /\ GetReference m = r.
Proof.
  intros Hfind.
  destruct (Exists_dec (fun m0 => GetReference m0 = r) (modules_of b)
              (fun m0 => string_dec (GetReference m0) r)) as [Hex|Hno].
  - apply Exists_exists in Hex. destruct Hex as (m0 & Hin & Href).
    destruct (Find_present b m0 Hin Href) as (m' & Hfind' & Hin' & Href').
    rewrite Hfind in Hfind'. injection Hfind' as <-. split; assumption.
  - rewrite Find_absent in Hfind; [discriminate|].
    intros m0 Hin Href. apply Hno. apply Exists_exists.
    exists m0. split; assumption.
Qed.

Lemma Find_none_off_board (C : EngineContract E) (b : BOARD) (r : string) :
  FindModuleByReference b r = None ->
  forall m, In m (modules_of b) -> GetReference m <> r.
Proof.
  intros Hfind m Hin Href.
  destruct (Find_present b m Hin Href) as (m' & Hfind' & _).
  rewrite Hfind in Hfind'. discriminate.
Qed.

(** A list without two elements of the same key has one element per key. *)
Lemma NoDup_map_same_key {A B : Type} (f : A -> B) (l : list A) (x y : A) :
  NoDup (map f l) -> In x l -> In y l -> f x = f y -> x = y.
Proof.
  induction l as [|a l IH]; intros Hnd Hx Hy Hf; [destruct Hx|].
  simpl in Hnd. inversion Hnd as [|? ? Hnotin Hnd']; subst.
  destruct Hx as [->|Hx], Hy as [->|Hy].
  - reflexivity.
  - exfalso. apply Hnotin. rewrite Hf. apply in_map. exact Hy.
  - exfalso. apply Hnotin. rewrite <- Hf. apply in_map. exact Hx.
  - apply IH; assumption.
Qed.

(** X1. The keyed lookup is exact in both directions.  A module it
    returns carries the key and is one of the elements that a full
    iteration yields; when it raises, the exception is the [KeyError]
    naming the key and no module of the board carries the key.  The board
    is left as it was in both cases. *)
Theorem getitem_outcome_is_exact (C : EngineContract E) (b : BOARD) (R : string) :
  (forall w b', __getitem__ R b = (Return w, b') ->
     b' = b /\ reference w = R /\
     exists xs, iterate (S (List.length (modules_of b))) b = Some (Return xs, b)
                /\ In w xs) /\
  (forall e b', __getitem__ R b = (Raise e, b') ->
     b' = b /\ e = KeyError ("No module with reference: " ++ R) /\
     forall m, In m (modules_of b) -> GetReference m <> R).
Proof.
  unfold __getitem__, bind, query, ret, raise.
  destruct (FindModuleByReference b R) as [found|] eqn:Hfind; split;
    intros x b' Heq; try discriminate.
  - injection Heq as <- <-.
    destruct (@Find_some_on_board C b R found Hfind) as [Hin Href].
    repeat split; [exact Href|].
    exists (map wrap (modules_of b)). split.
    + apply iterate_run. lia.
    + apply in_map. exact Hin.
  - injection Heq as <- <-. repeat split.
    exact (@Find_none_off_board C b R Hfind).
Qed.

(** X2. The two lookup entry points always agree, whatever the engine
    answers: either both hand out the same wrapped module, or
    [moduleByRef] returns [None] exactly where the collection raises
    [KeyError]; neither touches the board. *)
Theorem moduleByRef_agrees_with_getitem (b : BOARD) (R : string) :
  (exists w, moduleByRef R b = (Return (Some w), b) /\
             __getitem__ R b = (Return w, b)) \/
  (moduleByRef R b = (Return None, b) /\
   __getitem__ R b = (Raise (KeyError ("No module with reference: " ++ R)), b)).
Proof.
  unfold moduleByRef, __getitem__, bind, query.
  destruct (FindModuleByReference b R) as [found|].
  - left. exists (wrap found). split; reflexivity.
  - right. split; reflexivity.
Qed.

(** X3. On a board whose references are pairwise distinct, looking up the
    reference of any module that iteration yields gives back that very
    module, through either entry point. *)
Theorem iterated_module_found_by_reference (C : EngineContract E) (b : BOARD)
    (fuel : nat) (xs : list Module) (w : Module) :
  NoDup (map GetReference (modules_of b)) ->
  iterate fuel b = Some (Return xs, b) ->
  In w xs ->
  __getitem__ (reference w) b = (Return w, b) /\
  moduleByRef (reference w) b = (Return (Some w), b).
Proof.
  intros Hnd Hrun Hw.
  apply iterate_result in Hrun. injection Hrun as ->.
  apply in_map_iff in Hw. destruct Hw as (m & <- & Hin).
  destruct (Find_present b m Hin eq_refl) as (m' & Hfind & Hin' & Href').
  assert (m' = m) by (eapply NoDup_map_same_key; eassumption). subst m'.
  unfold __getitem__, moduleByRef, bind, query, reference. simpl.
  rewrite Hfind. split; reflexivity.
Qed.

End LookupFacts.

(** ** Vias *)

Section ViaFacts.
Context {E : Engine} {K : Collaborators E}.
Context {T : EngineTracks E} {V : ViaCollaborator K}.
Import Board.

(** A track that is not a via costs the generator no [next]. *)
Lemma vias_drain_skip (t : TRACK) (rest : list TRACK) (b : BOARD) (fuel : nat) :
  is_VIA t = false ->
  vias_drain fuel (VSuspended (t :: rest)) b
  = vias_drain fuel (VSuspended rest) b.
Proof.
  intros Ht. destruct fuel as [|fuel]; [reflexivity|].
  cbn [vias_drain vias_next vias_resume]. rewrite Ht. reflexivity.
Qed.

Lemma vias_drain_suspended (rest : list TRACK) (b : BOARD) (fuel : nat) :
  List.length (filter is_VIA rest) < fuel ->
  vias_drain fuel (VSuspended rest) b
  = Some (Return (map Via_wrap (filter is_VIA rest)), b).
Proof.
  revert fuel. induction rest as [|t rest IH]; intros fuel Hfuel.
  - destruct fuel as [|fuel]; [inversion Hfuel|]. reflexivity.
  - destruct (is_VIA t) eqn:Ht.
    + cbn [filter] in *. rewrite Ht in *.
      destruct fuel as [|fuel]; [inversion Hfuel|].
      cbn [vias_drain vias_next vias_resume]. rewrite Ht.
      rewrite IH by (simpl in Hfuel; lia). reflexivity.
    + rewrite vias_drain_skip by exact Ht.
      cbn [filter] in *. rewrite Ht in *. apply IH. exact Hfuel.
Qed.

Lemma vias_drain_short (rest : list TRACK) (b : BOARD) (fuel : nat) :
  fuel <= List.length (filter is_VIA rest) ->
  vias_drain fuel (VSuspended rest) b = None.
Proof.
  revert fuel. induction rest as [|t rest IH]; intros fuel Hfuel.
  - simpl in Hfuel. assert (fuel = 0) by lia. subst. reflexivity.
  - destruct (is_VIA t) eqn:Ht.
    + cbn [filter] in Hfuel. rewrite Ht in Hfuel.
      destruct fuel as [|fuel]; [reflexivity|].
      cbn [vias_drain vias_next vias_resume]. rewrite Ht.
      rewrite IH by (simpl in Hfuel; lia). reflexivity.
    + rewrite vias_drain_skip by exact Ht.
      cbn [filter] in Hfuel. rewrite Ht in Hfuel. apply IH. exact Hfuel.
Qed.

Lemma vias_drain_created (b : BOARD) (fuel : nat) :
  vias_drain fuel VCreated b = vias_drain fuel (VSuspended (tracks_of b)) b.
Proof.
  destruct fuel as [|fuel]; reflexivity.
Qed.

(** X4. One full run of [vias] yields exactly the tracks of the board
    whose type is [VIA], wrapped, in the order of the track list, and
    leaves the board as it is.  The run takes one [next] per via and a last
    one that raises [StopIteration], however many plain tracks lie in
    between; a yielded element is always a via of the board, and every via
    of the board is yielded. *)
Theorem vias_are_the_via_tracks (b : BOARD) :
  let vs := filter is_VIA (tracks_of b) in
  list_vias (S (List.length vs)) b = Some (Return (map Via_wrap vs), b) /\
  list_vias (List.length vs) b = None /\
  List.length vs <= List.length (tracks_of b) /\
  forall v : Via,
    In v (map Via_wrap vs) <->
    In (Via_obj v) (tracks_of b) /\ is_VIA (Via_obj v) = true.
Proof.
  intros vs. unfold list_vias, vias, ret. rewrite !vias_drain_created.
  split; [apply vias_drain_suspended; unfold vs; lia|].
  split; [apply vias_drain_short; unfold vs; lia|].
  split; [apply filter_length_le|].
  intros v. rewrite in_map_iff. split.
  - intros (t & <- & Hin). apply filter_In in Hin. exact Hin.
  - intros Hv. exists (Via_obj v). split; [destruct v; reflexivity|].
    apply filter_In. exact Hv.
Qed.

(** The values a new via gets on board [b]. *)
Definition via_size (size : option float) (b : BOARD) : float :=
  match size with
  | Some s =>
      if float_truthy s then s
      else in_mm (GetCurrentViaSize (GetDesignSettings b))
  | None => in_mm (GetCurrentViaSize (GetDesignSettings b))
  end.

Definition current_via_drill (b : BOARD) : float :=
  if (0 <? GetCurrentViaDrill (GetDesignSettings b))%Z
  then in_mm (GetCurrentViaDrill (GetDesignSettings b))
  else fallback_via_drill.

Definition via_drill (drill : option float) (b : BOARD) : float :=
  match drill with
  | Some d => if float_truthy d then d else current_via_drill b
  | None => current_via_drill b
  end.

Lemma default_via_size_run (b : BOARD) :
  default_via_size b
  = (Return (in_mm (GetCurrentViaSize (GetDesignSettings b))), b).
Proof.
  unfold default_via_size, bind, query, lift.
  rewrite truediv_by_unit. reflexivity.
Qed.

Lemma default_via_drill_run (b : BOARD) :
  default_via_drill b = (Return (current_via_drill b), b).
Proof.
  unfold default_via_drill, current_via_drill, bind, query, lift.
  destruct (0 <? GetCurrentViaDrill (GetDesignSettings b))%Z;
    [rewrite truediv_by_unit|]; reflexivity.
Qed.

Lemma add_via_adds_one_via_run (coord : Point) (layer_pair : string * string)
    (size drill : option float) (b : BOARD) :
  add_via coord layer_pair size drill b
  = (Return (Via_wrap (Via_init coord layer_pair (via_size size b)
                         (via_drill drill b) b)),
     Add b (TRACK_upcast (Via_init coord layer_pair (via_size size b)
                            (via_drill drill b) b))).
Proof.
  unfold add_via.
  assert (Hs : size_or_default size b = (Return (via_size size b), b)).
  { unfold size_or_default, via_size.
    destruct size as [s|]; [destruct (float_truthy s)|];
      try apply default_via_size_run; reflexivity. }
  assert (Hd : drill_or_default drill b = (Return (via_drill drill b), b)).
  { unfold drill_or_default, via_drill.
    destruct drill as [d|]; [destruct (float_truthy d)|];
      try apply default_via_drill_run; reflexivity. }
  unfold bind at 1. rewrite Hs. unfold bind at 1. rewrite Hd. reflexivity.
Qed.

(** X5. [add_via] never raises and hands the engine exactly one via.  Its
    size is the size given, unless that is [None] or zero, in which case it
    is the engine's current via size in millimetres; its drill is the drill
    given, unless that is [None] or zero, in which case it is the engine's
    current via drill in millimetres, or 0.2 when the engine has none
    (zero or negative).  The via returned is the one that was added. *)
Theorem add_via_adds_one_via (coord : Point) (layer_pair : string * string)
    (size drill : option float) (b : BOARD) :
  let v := Via_init coord layer_pair (via_size size b) (via_drill drill b) b in
  add_via coord layer_pair size drill b
  = (Return (Via_wrap v), Add b (TRACK_upcast v)).
Proof.
  intros v. apply add_via_adds_one_via_run.
Qed.

End ViaFacts.

(** ** Polylines, piece by piece *)

Section SegmentsFacts.
Context {A : Type}.

Lemma segments_cons (a c : A) (l : list A) :
  segments (a :: c :: l) = (a, c) :: segments (c :: l).
Proof. reflexivity. Qed.

(** Cutting a list at one of its points cuts its consecutive pairs. *)
Lemma segments_split (xs ys : list A) (m : A) :
  segments (xs ++ m :: ys) = segments (xs ++ [m]) ++ segments (m :: ys).
Proof.
  induction xs as [|a xs IH]; [reflexivity|].
  destruct xs as [|c xs]; [reflexivity|].
  change ((a :: c :: xs) ++ m :: ys) with (a :: c :: (xs ++ m :: ys)).
  change ((a :: c :: xs) ++ [m]) with (a :: c :: (xs ++ [m])).
  rewrite !segments_cons.
  change (c :: xs ++ m :: ys) with ((c :: xs) ++ m :: ys).
  rewrite IH. reflexivity.
Qed.

End SegmentsFacts.

Section PolylineFacts.
Context {E : Engine} {K : Collaborators E}.
Import Board.

(** X6. A width of zero is a width left out: [add_track_segment] and
    [add_track] called with width [0.0] (or [-0.0]) do what they do with
    [None], reading the board's default width.  Any other width, a NaN
    included, is handed to the track constructor as given. *)
Theorem zero_width_is_no_width (start end_ : Point) (coords : list Point)
    (layer : string) (w : float) (b : BOARD) :
  (PrimFloat.eqb w 0%float = true ->
   add_track_segment start end_ layer (Some w) b
   = add_track_segment start end_ layer None b /\
   add_track coords layer (Some w) b = add_track coords layer None b) /\
  (PrimFloat.eqb w 0%float = false ->
   add_track_segment start end_ layer (Some w) b
   = (Return (Track_wrap (Track_init w start end_ layer b)),
      Add b (TRACK_upcast (Track_init w start end_ layer b)))).
Proof.
  split; intros Hw.
  - assert (Hlay : forall b' se,
               lay_track layer (Some w) b' se = lay_track layer None b' se).
    { intros b' se. unfold lay_track, track_width, float_truthy.
      rewrite Hw. reflexivity. }
    split.
    + rewrite !add_track_segment_run. unfold track_width, float_truthy.
      rewrite Hw. simpl. f_equal. apply Hlay.
    + rewrite !add_track_run. f_equal.
      generalize (segments coords) b. intros l.
      induction l as [|se l IH]; intros b'; [reflexivity|].
      simpl. rewrite Hlay. apply IH.
  - rewrite add_track_segment_run. unfold lay_track, track_width, float_truthy.
    rewrite Hw. reflexivity.
Qed.

(** X7. A polyline can be laid in two calls: cutting the list of
    coordinates at any of its points and adding the two parts, the cut
    point being the end of the first and the start of the second, leaves
    the board that adding the whole list leaves.  This holds for tracks
    and for graphic lines. *)
Theorem polyline_in_two_calls (xs ys : list Point) (m : Point)
    (layer : string) (track_w : option float) (line_w : float) (b : BOARD) :
  (add_track (xs ++ [m]) layer track_w ;;;
   add_track (m :: ys) layer track_w) b
  = add_track (xs ++ m :: ys) layer track_w b /\
  (add_polyline (xs ++ [m]) layer line_w ;;;
   add_polyline (m :: ys) layer line_w) b
  = add_polyline (xs ++ m :: ys) layer line_w b.
Proof.
  unfold bind. rewrite !add_track_run, !add_polyline_run.
  rewrite (@segments_split _ xs ys m), !fold_left_app. split; reflexivity.
Qed.

(** X8. A polyline is its first segment followed by the polyline of the
    remaining points: [add_track] on [a :: c :: rest] is
    [add_track_segment] from [a] to [c] followed by [add_track] on
    [c :: rest], and likewise [add_polyline] with [add_line]. *)
Theorem polyline_first_segment (a c : Point) (rest : list Point)
    (layer : string) (track_w : option float) (line_w : float) (b : BOARD) :
  add_track (a :: c :: rest) layer track_w b
  = (add_track_segment a c layer track_w ;;;
     add_track (c :: rest) layer track_w) b /\
  add_polyline (a :: c :: rest) layer line_w b
  = (add_line a c layer line_w ;;;
     add_polyline (c :: rest) layer line_w) b.
Proof.
  unfold bind.
  rewrite add_track_segment_run, add_line_run.
  rewrite !add_track_run, !add_polyline_run, !segments_cons.
  split; reflexivity.
Qed.

End PolylineFacts.

(** ** What adding does to the module collection *)

(** An engine that places a module last places it among the others. *)
Lemma PlacementOrder_adds_module (E : Engine) :
  PlacementOrder E -> AddsModule E.
Proof.
  intros P. constructor. intros b m. rewrite Add_module_last.
  apply Permutation_sym, Permutation_cons_append.
Qed.

#[export] Instance RefEngine_adds_module : AddsModule RefEngine.engine.
Proof. apply PlacementOrder_adds_module. exact RefEngine_placement. Qed.

#[export] Instance ViaEngine_contract : EngineContract ViaEngine.engine.
Proof.
  constructor.
  - intros d. reflexivity.
  - intros b r Habs. apply RefEngine_find_none. exact Habs.
  - intros b r m Hin Href. eapply RefEngine_find_some; eassumption.
Qed.

#[export] Instance ViaEngine_keeps_modules : AddKeepsModules ViaEngine.engine.
Proof. constructor; intros b x; reflexivity. Qed.

Section AddFacts.
Context {E : Engine} {K : Collaborators E}.
Import module _ModuleList Board.

(** The collection reads the same on [b'] as on [b]: same modules, same
    size, same iteration. *)
Definition same_collection (b b' : BOARD) : Prop :=
  modules_of b' = modules_of b /\
  fst (__len__ b') = fst (__len__ b) /\
  forall fuel, option_map fst (iterate fuel b') = option_map fst (iterate fuel b).

Lemma iterate_by_modules (b : BOARD) (fuel : nat) :
  option_map fst (iterate fuel b)
  = if Nat.ltb (List.length (modules_of b)) fuel
    then Some (Return (map wrap (modules_of b))) else None.
Proof.
  destruct (Nat.ltb_spec (List.length (modules_of b)) fuel) as [Hlt|Hge].
  - rewrite iterate_run by exact Hlt. reflexivity.
  - unfold iterate, __iter__, ret. rewrite drain_created.
    rewrite drain_suspended_short by exact Hge. reflexivity.
Qed.

Lemma same_modules_same_collection (C : EngineContract E) (b b' : BOARD) :
  modules_of b' = modules_of b -> same_collection b b'.
Proof.
  intros Hmods. split; [exact Hmods|split].
  - unfold __len__, query. simpl. rewrite !GetCount_nodes.
    fold (modules_of b') (modules_of b). rewrite Hmods. reflexivity.
  - intros fuel. rewrite !iterate_by_modules, Hmods. reflexivity.
Qed.

Lemma lay_tracks_keep_modules (A : AddKeepsModules E) (layer : string)
    (width : option float) (l : list (Point * Point)) (b : BOARD) :
  modules_of (fold_left (lay_track layer width) l b) = modules_of b.
Proof.
  revert b. induction l as [|se l IH]; intros b; [reflexivity|].
  simpl. rewrite IH. apply Add_track_modules.
Qed.

Lemma lay_lines_keep_modules (A : AddKeepsModules E) (layer : string)
    (width : float) (l : list (Point * Point)) (b : BOARD) :
  modules_of (fold_left (lay_line layer width) l b) = modules_of b.
Proof.
  revert b. induction l as [|se l IH]; intros b; [reflexivity|].
  simpl. rewrite IH. apply Add_drawing_modules.
Qed.

(** X9. Tracks, graphic lines and vias do not disturb the module
    collection: after [add_track], [add_polyline] or [add_via] the
    collection has the modules, the size and the iteration it had before,
    on any engine whose [Add] of a track or of a drawing leaves the module
    list alone. *)
Theorem routing_keeps_module_collection (C : EngineContract E)
    (A : AddKeepsModules E) (V : ViaCollaborator K)
    (coords : list Point) (layer : string) (track_w : option float)
    (line_w : float) (coord : Point) (layer_pair : string * string)
    (size drill : option float) (b : BOARD) :
  same_collection b (snd (add_track coords layer track_w b)) /\
  same_collection b (snd (add_polyline coords layer line_w b)) /\
  same_collection b (snd (add_via coord layer_pair size drill b)).
Proof.
  split; [|split]; apply (same_modules_same_collection C).
  - rewrite add_track_run. apply (lay_tracks_keep_modules A).
  - rewrite add_polyline_run. apply (lay_lines_keep_modules A).
  - rewrite add_via_adds_one_via_run. apply Add_track_modules.
Qed.

Lemma getitem_raises_iff_absent (C : EngineContract E) (b : BOARD) (R : string) :
  (exists e, __getitem__ R b = (Raise e, b)) <->
  (forall m, In m (modules_of b) -> GetReference m <> R).
Proof.
  split.
  - intros (e & Hraise). unfold __getitem__, bind, query in Hraise.
    destruct (FindModuleByReference b R) eqn:Hfind; [discriminate|].
    exact (@Find_none_off_board E C b R Hfind).
  - intros Habsent. eexists. apply (@getitem_absent_lookup E C). exact Habsent.
Qed.

(** X10. A module put on the board with [Board.add] is in the collection
    from then on: the size is one more, the lookup of its reference
    returns a module with that reference, which is the added module itself
    when no module carried the reference before, and for every other
    reference the lookup raises after the call exactly when it raised
    before. *)
Theorem added_module_is_found (C : EngineContract E) (A : AddsModule E)
    (m : MODULE) (b : BOARD) :
  let b' := snd (add (wrap m) b) in
  fst (add (wrap m) b) = Return (wrap m) /\
  (exists n, __len__ b = (Return n, b) /\ __len__ b' = (Return (n + 1)%Z, b')) /\
  (exists w, __getitem__ (GetReference m) b' = (Return w, b') /\
             reference w = GetReference m) /\
  ((forall m0, In m0 (modules_of b) -> GetReference m0 <> GetReference m) ->
   __getitem__ (GetReference m) b' = (Return (wrap m), b')) /\
  (forall R, R <> GetReference m ->
     ((exists e, __getitem__ R b' = (Raise e, b')) <->
      (exists e, __getitem__ R b = (Raise e, b)))).
Proof.
  intros b'.
  assert (Hperm : Permutation (modules_of b') (m :: modules_of b))
    by apply Add_module_perm.
  assert (Hin : In m (modules_of b'))
    by (apply (Permutation_in _ (Permutation_sym Hperm)); left; reflexivity).
  split; [reflexivity|]. split; [|split; [|split]].
  - eexists. split; [reflexivity|].
    unfold __len__, query. rewrite !GetCount_nodes.
    fold (modules_of b') (modules_of b).
    rewrite (Permutation_length Hperm). simpl List.length.
    rewrite Nat2Z.inj_succ. unfold Z.succ. reflexivity.
  - destruct (Find_present b' m Hin eq_refl) as (m' & Hfind & _ & Href').
    exists (wrap m'). unfold __getitem__, bind, query. rewrite Hfind.
    split; [reflexivity | exact Href'].
  - intros Hfresh.
    destruct (Find_present b' m Hin eq_refl) as (m' & Hfind & Hin' & Href').
    unfold __getitem__, bind, query. rewrite Hfind.
    apply (Permutation_in _ Hperm) in Hin'.
    destruct Hin' as [<-|Hold]; [reflexivity|].
    exfalso. exact (Hfresh m' Hold Href').
  - intros R HR. rewrite !(getitem_raises_iff_absent C). split.
    + intros Habs m0 Hm0. apply Habs.
      apply (Permutation_in _ (Permutation_sym Hperm)). right. exact Hm0.
    + intros Habs m0 Hm0. apply (Permutation_in _ Hperm) in Hm0.
      destruct Hm0 as [<-|Hm0]; [congruence | apply Habs; exact Hm0].
Qed.

End AddFacts.

(** ** The further properties on the reference engines *)

Section MoreOnRefEngine.
Import module _ModuleList Board RefEngine.

Lemma three_parts_distinct :
  NoDup (map GetReference (modules_of three_parts)).
Proof.
  simpl. repeat constructor; simpl; intros H;
    repeat (destruct H as [H|H]; [discriminate|]); exact H.
Defined.

Lemma three_parts_no_Q1_yet :
  forall m0, In m0 (modules_of three_parts) ->
             GetReference m0 <> GetReference (placed "Q1").
Proof.
  intros m Hin. simpl in Hin.
  destruct Hin as [<-|[<-|[<-|[]]]]; discriminate.
Defined.

Example add_track_zero_width :
  m_Track (snd (add_track [p0; p1] "F.Cu" (Some (-0)%float) empty_board))
  = [ {| t_Width := 0.25; t_Start := p0; t_End := p1; t_Layer := "F.Cu" |} ].
Proof. vm_compute. reflexivity. Qed.

Lemma getitem_outcome_is_exact_witness :
  (three_parts = three_parts /\
   reference (wrap (placed "C1")) = "C1" /\
   exists xs,
     iterate (S (List.length (modules_of three_parts))) three_parts
     = Some (Return xs, three_parts) /\ In (wrap (placed "C1")) xs) /\
  (three_parts = three_parts /\
   KeyError "No module with reference: Q1"
   = KeyError ("No module with reference: " ++ "Q1") /\
   forall m, In m (modules_of three_parts) -> GetReference m <> "Q1").
Proof.
  split.
  - exact (proj1 (@getitem_outcome_is_exact engine RefEngine_contract
                    three_parts "C1")
             (wrap (placed "C1")) three_parts eq_refl).
  - exact (proj2 (@getitem_outcome_is_exact engine RefEngine_contract
                    three_parts "Q1")
             (KeyError "No module with reference: Q1") three_parts eq_refl).
Defined.

Lemma iterated_module_found_by_reference_witness :
  __getitem__ "C1" three_parts = (Return (wrap (placed "C1")), three_parts) /\
  moduleByRef "C1" three_parts = (Return (Some (wrap (placed "C1"))), three_parts).
Proof.
  apply (@iterated_module_found_by_reference engine RefEngine_contract
           three_parts 4
           [@wrap engine (placed "R1"); @wrap engine (placed "C1");
            @wrap engine (placed "U1")]
           (@wrap engine (placed "C1"))).
  - exact three_parts_distinct.
  - reflexivity.
  - simpl. right. left. reflexivity.
Defined.

Lemma zero_width_is_no_width_witness :
  (add_track_segment p0 p1 "F.Cu" (Some 0%float) empty_board
   = add_track_segment p0 p1 "F.Cu" None empty_board /\
   add_track [p0; p1; p2] "F.Cu" (Some 0%float) empty_board
   = add_track [p0; p1; p2] "F.Cu" None empty_board) /\
  add_track_segment p0 p1 "F.Cu" (Some 0.5%float) empty_board
  = (Return (Track_wrap (Track_init 0.5%float p0 p1 "F.Cu" empty_board)),
     Add empty_board
       (TRACK_upcast (Track_init 0.5%float p0 p1 "F.Cu" empty_board))).
Proof.
  split.
  - apply (proj1 (@zero_width_is_no_width engine collaborators
                    p0 p1 [p0; p1; p2] "F.Cu" 0%float empty_board)).
    reflexivity.
  - apply (proj2 (@zero_width_is_no_width engine collaborators
                    p0 p1 [p0; p1; p2] "F.Cu" 0.5%float empty_board)).
    reflexivity.
Defined.

Lemma added_module_is_found_witness :
  let b' := snd (add (wrap (placed "Q1")) three_parts) in
  fst (add (wrap (placed "Q1")) three_parts) = Return (wrap (placed "Q1")) /\
  (exists n, __len__ three_parts = (Return n, three_parts) /\
             __len__ b' = (Return (n + 1)%Z, b')) /\
  (exists w, __getitem__ "Q1" b' = (Return w, b') /\ reference w = "Q1") /\
  __getitem__ "Q1" b' = (Return (wrap (placed "Q1")), b') /\
  (forall R, R <> "Q1" ->
     ((exists e, __getitem__ R b' = (Raise e, b')) <->
      (exists e, __getitem__ R three_parts = (Raise e, three_parts)))).
Proof.
  destruct (@added_module_is_found engine RefEngine_contract
              RefEngine_adds_module (placed "Q1") three_parts)
    as (Hret & Hlen & Hfound & Hself & Hothers).
  exact (conj Hret (conj Hlen (conj Hfound
           (conj (Hself three_parts_no_Q1_yet) Hothers)))).
Defined.

End MoreOnRefEngine.

Section OnViaEngine.
Import module _ModuleList Board ViaEngine.

Example list_vias_routed :
  list_vias 3 routed
  = Some (Return [Via_wrap (through RefEngine.p1); Via_wrap (through RefEngine.p2)],
          routed).
Proof. reflexivity. Qed.

(** Two calls of [next] are not enough for two vias: the run is only over
    at the third. *)
Example list_vias_routed_short : list_vias 2 routed = None.
Proof. reflexivity. Qed.

Example add_via_without_drill :
  tracks (snd (add_via RefEngine.p1 ("B.Cu", "F.Cu") None None unset))
  = [ PCB_VIA {| v_Pos := RefEngine.p1; v_Layers := ("B.Cu", "F.Cu");
                 v_Size := 0.75; v_Drill := fallback_via_drill |} ].
Proof. vm_compute. reflexivity. Qed.

Lemma routing_keeps_module_collection_witness :
  same_collection routed
    (snd (add_track [RefEngine.p0; RefEngine.p1; RefEngine.p2] "F.Cu" None routed)) /\
  same_collection routed
    (snd (add_polyline [RefEngine.p0; RefEngine.p1; RefEngine.p2] "F.Cu"
            0.25%float routed)) /\
  same_collection routed
    (snd (add_via RefEngine.p2 ("B.Cu", "F.Cu") None None routed)).
Proof.
  exact (@routing_keeps_module_collection engine collaborators
           ViaEngine_contract ViaEngine_keeps_modules via_collaborator
           [RefEngine.p0; RefEngine.p1; RefEngine.p2] "F.Cu" None 0.25%float
           RefEngine.p2 ("B.Cu", "F.Cu") None None routed).
Defined.

End OnViaEngine.
